(** * The two database utility scripts

    [scripts/db_server.py] serves the file [sqlite.db] for download through a
    Flask application; [scripts/sqlite_server.py] starts the external program
    [sqlite_web] on the same file.

    Both scripts are straight-line code over library calls.  The scripts are
    embedded as programs of a small monad [Py] that reads the process
    environment ([World]), records the observable effects ([Event]) and ends
    by returning, by raising, or by blocking for ever.  The library calls the
    scripts make ([os.path.abspath], [print], [subprocess.run],
    [flask.send_file], [Flask], [Flask.route], [Flask.run],
    [flask_cors.CORS]) are modelled next to them, each under a "Library
    model" comment.  Of the response headers the libraries produce, the
    model keeps Content-Disposition, Content-Range, Location, Allow, Vary and
    Access-Control-Allow-Origin; what the libraries write to standard error
    is left out. *)

From Stdlib Require Import String Ascii List ZArith Bool.
From stdpp Require Import base option gmap strings pretty.
Import ListNotations.

Local Open Scope string_scope.
Local Open Scope list_scope.

(** ** HTTP requests *)

Module http.

Inductive Method := GET | HEAD | POST | PUT | DELETE | PATCH | OPTIONS.

(** The entity tags of an If-Match or If-None-Match header: the star, the
    strong tags and the weak tags. *)
Record ETags := mkETags {
  star_tag : bool;
  strong : list string;
  weak : list string
}.

(** A Range header: [bytes=first-last], [bytes=first-], [bytes=-n], or
    anything else (several ranges, another unit, not parsable). *)
Inductive RangeHeader :=
| BytesFromTo (first last : nat)
| BytesFrom (first : nat)
| BytesSuffix (n : nat)
| OtherRange.

(** An If-Range header holds an entity tag or a date. *)
Inductive IfRange :=
| IfRangeETag (tag : string)
| IfRangeDate (date : Z).

(** What the framework reads of a request: the method, the path
    ([PATH_INFO]), the Origin header, the Range header and the precondition
    headers.  Dates are in seconds. *)
Record Request := mkEnviron {
  method : Method;
  path : string;
  origin : option string;
  range : option RangeHeader;
  if_range : option IfRange;
  if_none_match : option ETags;
  if_match : option ETags;
  if_modified_since : option Z
}.

End http.

(** ** Process environment *)

Definition bytes := list Byte.byte.

(** What a running script can observe of its process: the working directory
    ([os.getcwd()]), the regular files reachable by path with their contents,
    the command line ([sys.argv]) and the environment ([os.environ]); the
    interpreter ([sys.executable]) and the file of the script ([__file__]);
    the variables that [.env] and [.flaskenv] files would add to the
    environment; of each file its modification time and the entity tag the
    framework derives from its time, size and name; the MIME types the
    system knows for file names; the ports that are taken; and, while a
    request is handled, that request ([flask.request]). *)
Record World := mkWorld {
  getcwd : string;
  files : gmap string bytes;
  sys_argv : list string;
  os_environ : gmap string string;
  sys_executable : string;
  module_file : string;
  dotenv : gmap string string;
  file_mtime : string -> Z;
  file_etag : string -> string;
  guess_type : string -> option string;
  ports_in_use : list Z;
  flask_request : http.Request
}.

(** The world while [req] is handled. *)
Definition with_request (req : http.Request) (w : World) : World :=
  mkWorld (getcwd w) (files w) (sys_argv w) (os_environ w)
    (sys_executable w) (module_file w) (dotenv w) (file_mtime w)
    (file_etag w) (guess_type w) (ports_in_use w) req.


(** The world with another environment. *)
Definition with_environ (env : gmap string string) (w : World) : World :=
  mkWorld (getcwd w) (files w) (sys_argv w) env
    (sys_executable w) (module_file w) (dotenv w) (file_mtime w)
    (file_etag w) (guess_type w) (ports_in_use w) (flask_request w).

(** ** Library model: [posixpath] *)

Module posixpath.

Definition sep : string := "/".

Definition isabs (s : string) : bool := String.prefix sep s.

Definition endswith (suffix s : string) : bool :=
  let n := String.length s in
  let k := String.length suffix in
  (k <=? n)%nat && String.eqb (String.substring (n - k) k s) suffix.

(** [join a b] for a single extra component. *)
Definition join (a b : string) : string :=
  if isabs b then b
  else if String.eqb a "" || endswith sep a then a +:+ b
  else a +:+ sep +:+ b.

(** [str.split] on a one-character separator. *)
Fixpoint split (c : ascii) (s : string) : list string :=
  match s with
  | EmptyString => [""]
  | String a s' =>
      if Ascii.eqb a c then "" :: split c s'
      else match split c s' with
           | [] => [String a ""]
           | h :: t => String a h :: t
           end
  end.

(** One or two leading slashes are kept, three or more count as one. *)
Definition initial_slashes (path : string) : nat :=
  if negb (String.prefix sep path) then 0
  else if String.prefix "//" path && negb (String.prefix "///" path) then 2
  else 1.

Definition ends_with_dotdot (comps : list string) : bool :=
  match last comps with
  | Some c => String.eqb c ".."
  | None => false
  end.

Definition is_nil {A} (l : list A) : bool :=
  match l with [] => true | _ => false end.

(** Body of the loop of [normpath] over the components. *)
Definition norm_step (initial : nat) (new_comps : list string) (comp : string)
  : list string :=
  if String.eqb comp "" || String.eqb comp "." then new_comps
  else if negb (String.eqb comp "..")
          || ((initial =? 0)%nat && is_nil new_comps)
          || ends_with_dotdot new_comps
       then new_comps ++ [comp]
       else removelast new_comps.

Definition slashes (n : nat) : string := String.concat "" (repeat sep n).

Definition normpath (path : string) : string :=
  if String.eqb path "" then "."
  else
    let initial := initial_slashes path in
    let comps := fold_left (norm_step initial) (split "/"%char path) [] in
    let path' := slashes initial +:+ String.concat sep comps in
    if String.eqb path' "" then "." else path'.

(** [abspath] of [path] in a process whose working directory is [cwd]. *)
Definition abspath (cwd path : string) : string :=
  normpath (if isabs path then path else join cwd path).

(** [p[:i], p[i:]] for [i] just after the last [c] of [p]. *)
Fixpoint rpartition (c : ascii) (p : string) : string * string :=
  match p with
  | EmptyString => ("", "")
  | String a p' =>
      let '(h, t) := rpartition c p' in
      if negb (String.eqb h "") then (String a h, t)
      else if Ascii.eqb a c then (String a "", t)
      else ("", String a t)
  end.

Definition basename (p : string) : string := snd (rpartition "/" p).

(** [s.rstrip('/')] *)
Fixpoint rstrip_slashes (s : string) : string :=
  match s with
  | EmptyString => ""
  | String c s' =>
      let r := rstrip_slashes s' in
      if String.eqb r "" && Ascii.eqb c "/" then "" else String c r
  end.

Definition dirname (p : string) : string :=
  let head := fst (rpartition "/" p) in
  if String.eqb (rstrip_slashes head) "" then head else rstrip_slashes head.

Fixpoint all_dots (s : string) : bool :=
  match s with
  | EmptyString => true
  | String c s' => Ascii.eqb c "." && all_dots s'
  end.

(** [splitext(name)[0]] for a file name without directory: the name up to
    its last dot, unless only dots come before that dot. *)
Definition stem (name : string) : string :=
  let head := fst (rpartition "." name) in
  let root := String.substring 0 (String.length head - 1) head in
  if String.eqb head "" || all_dots root then name else root.

End posixpath.

(** ** Effects of a Python program *)

(** The exceptions that reach the scripts. *)
Inductive exn :=
| FileNotFoundError (filename : string)
| KeyError (key : string)
| HTTPException (code : Z)
| RequestRedirect (location : string)
| SystemExit (code : Z).

(** How a call ends: it returns a value, raises, or never comes back (a
    server loop, a wait on a child that does not exit). *)
Inductive outcome (A : Type) :=
| Returns (a : A)
| Raises (e : exn)
| Blocks.
Arguments Returns {A} a.
Arguments Raises {A} e.
Arguments Blocks {A}.

(** What a program does to the outside, in the order it does it.  A
    listening server answers requests for the rules of [routes]. *)
Inductive Event :=
| Stdout (text : string)
| FsAccess (path : string)
| Exec (args : list string)
| ChildExit (returncode : Z)
| Listen (host : string) (port : Z) (routes : list string).

(** What starting a program does: the program cannot be started, it runs
    and exits with a return code, or it keeps running. *)
Inductive child_outcome :=
| LaunchFails (e : exn)
| Exits (returncode : Z)
| NeverExits.

(** The programs installed on the machine: what running an argument vector
    does in a given world (the child inherits the working directory and the
    environment of its parent, and sees the same files). *)
Definition Programs := World -> list string -> child_outcome.

(** A program reads the world and the installed programs, and yields the
    events it caused together with the way it ended. *)
Definition Py (A : Type) : Type := World -> Programs -> list Event * outcome A.

#[global] Instance Py_ret : MRet Py := fun A a _ _ => ([], Returns a).

#[global] Instance Py_bind : MBind Py := fun A B f m w ps =>
  match m w ps with
  | (t, Returns a) => let '(t', r) := f a w ps in (t ++ t', r)
  | (t, Raises e) => (t, Raises e)
  | (t, Blocks) => (t, Blocks)
  end.

Definition raise {A} (e : exn) : Py A := fun _ _ => ([], Raises e).

(** [try: m except Exception as e: h e] *)
Definition try_except {A} (m : Py A) (h : exn -> Py A) : Py A := fun w ps =>
  match m w ps with
  | (t, Raises e) => let '(t', r) := h e w ps in (t ++ t', r)
  | r => r
  end.

Definition trace {A} (r : list Event * outcome A) : list Event := fst r.
Definition ending {A} (r : list Event * outcome A) : outcome A := snd r.

(** The argument vectors of the processes a trace starts. *)
Definition exec_args (t : list Event) : list (list string) :=
  omap (fun ev => match ev with Exec args => Some args | _ => None end) t.

(** The paths at which a trace touches the file system. *)
Definition fs_paths (t : list Event) : list string :=
  omap (fun ev => match ev with FsAccess p => Some p | _ => None end) t.

(** The servers a trace starts: host, port and rules served. *)
Definition listens (t : list Event) : list (string * Z * list string) :=
  omap (fun ev => match ev with
                  | Listen h p rs => Some (h, p, rs)
                  | _ => None
                  end) t.

(** ** Library model: builtins, [os.path], [subprocess] *)

Definition print (text : string) : Py unit := fun _ _ => ([Stdout text], Returns tt).

Module os_path.
(** [os.path.abspath]: the working directory is read from the process. *)
Definition abspath (path : string) : Py string := fun w _ =>
  ([], Returns (posixpath.abspath (getcwd w) path)).
End os_path.

Module subprocess.

Record CompletedProcess := mkCompleted {
  cp_args : list string;
  returncode : Z
}.

(** [subprocess.run(args)] with every option at its default: the child is
    started with the parent's environment, the parent waits until it exits,
    and the return code is handed back without being checked. *)
Definition run (args : list string) : Py CompletedProcess := fun w ps =>
  match ps w args with
  | LaunchFails e => ([Exec args], Raises e)
  | Exits rc => ([Exec args; ChildExit rc], Returns (mkCompleted args rc))
  | NeverExits => ([Exec args], Blocks)
  end.

End subprocess.

(** ** Library model: [flask] *)

Module flask.

Abbreviation Method := http.Method.
Abbreviation GET := http.GET.
Abbreviation HEAD := http.HEAD.
Abbreviation POST := http.POST.
Abbreviation PUT := http.PUT.
Abbreviation DELETE := http.DELETE.
Abbreviation PATCH := http.PATCH.
Abbreviation OPTIONS := http.OPTIONS.
Abbreviation Request := http.Request.
Abbreviation method := http.method.
Abbreviation path := http.path.
Abbreviation origin := http.origin.

(** A request with the given method, path and origin and with no Range or
    precondition header. *)
Definition mkRequest (m : Method) (p : string) (o : option string) : Request :=
  http.mkEnviron m p o None None None None None.

Definition Method_eqb (a b : Method) : bool :=
  match a, b with
  | GET, GET | HEAD, HEAD | POST, POST | PUT, PUT
  | DELETE, DELETE | PATCH, PATCH | OPTIONS, OPTIONS => true
  | _, _ => false
  end.

Definition Method_name (m : Method) : string :=
  match m with
  | GET => "GET" | HEAD => "HEAD" | POST => "POST" | PUT => "PUT"
  | DELETE => "DELETE" | PATCH => "PATCH" | OPTIONS => "OPTIONS"
  end.

Inductive Payload :=
| FileData (data : bytes)
| ErrorPage (code : Z)
| NoContent.

Record Response := mkResponse {
  status : Z;
  mimetype : string;
  headers : list (string * string);
  body : Payload
}.

Definition header_get (name : string) (r : Response) : option string :=
  snd <$> find (fun h => String.eqb (fst h) name) (headers r).

Definition header_set (name value : string) (r : Response) : Response :=
  mkResponse (status r) (mimetype r)
    (List.filter (fun h => negb (String.eqb (fst h) name)) (headers r)
       ++ [(name, value)])
    (body r).

Definition header_add (name value : string) (r : Response) : Response :=
  mkResponse (status r) (mimetype r) (headers r ++ [(name, value)]) (body r).

(** *** Conditional and range requests *)

Definition etags_given (t : http.ETags) : bool :=
  http.star_tag t || negb (posixpath.is_nil (http.strong t))
  || negb (posixpath.is_nil (http.weak t)).

Definition is_strong (t : http.ETags) (etag : string) : bool :=
  existsb (String.eqb etag) (http.strong t).

Definition is_weak (t : http.ETags) (etag : string) : bool :=
  existsb (String.eqb etag) (http.weak t).

Definition contains (t : http.ETags) (etag : string) : bool :=
  http.star_tag t || is_strong t etag.

Definition contains_weak (t : http.ETags) (etag : string) : bool :=
  is_weak t etag || contains t etag.

(** [is_resource_modified]: the resource with entity tag [etag], last
    modified at [last_modified], against the preconditions of the request.
    If-Range counts only when it is not ignored and there is a Range. *)
Definition is_resource_modified (req : Request) (etag : string)
    (last_modified : Z) (ignore_if_range : bool) : bool :=
  let if_range :=
    if negb ignore_if_range && bool_decide (is_Some (http.range req))
    then http.if_range req else None in
  let modified_since :=
    match if_range with
    | Some (http.IfRangeDate d) => Some d
    | _ => http.if_modified_since req
    end in
  let by_date :=
    match modified_since with
    | Some d => (last_modified <=? d)%Z
    | None => false
    end in
  let unmodified :=
    match if_range with
    | Some (http.IfRangeETag tag) => String.eqb tag etag
    | _ =>
        let by_none_match :=
          match http.if_none_match req with
          | Some t => if etags_given t then contains_weak t etag else by_date
          | None => by_date
          end in
        match http.if_match req with
        | Some t => if etags_given t then negb (is_strong t etag)
                    else by_none_match
        | None => by_none_match
        end
    end in
  negb unmodified.

(** The byte range [start, stop) a Range header selects in a body of
    [length] bytes, if it selects one. *)
Definition range_for_length (r : http.RangeHeader) (length : nat)
  : option (nat * nat) :=
  match r with
  | http.BytesFromTo first last =>
      if (first <=? last)%nat && (first <? length)%nat
      then Some (first, Nat.min (S last) length) else None
  | http.BytesFrom first =>
      if (first <? length)%nat then Some (first, length) else None
  | http.BytesSuffix n =>
      if (n =? 0)%nat then (if (0 <? length)%nat then Some (0, length) else None)
      else if (n <=? length)%nat then Some (length - n, length) else None
  | http.OtherRange => None
  end.

Definition is_range_request_processable (req : Request) (etag : string)
    (last_modified : Z) : bool :=
  (negb (bool_decide (is_Some (http.if_range req)))
   || negb (is_resource_modified req etag last_modified false))
  && bool_decide (is_Some (http.range req)).

(** [Response.make_conditional(environ, accept_ranges=True,
    complete_length=len(data))] on the response [rv] for a file: a GET or
    HEAD with a Range that applies gets status 206 and the selected part, or
    the error 416 when the range selects nothing; otherwise a request whose
    preconditions say the client is up to date gets 304 (412 when the
    request had an If-Match), without body for 304. *)
Definition make_conditional (req : Request) (etag : string)
    (last_modified : Z) (data : bytes) (rv : Response) : exn + Response :=
  let length := List.length data in
  let not_modified :=
    match http.if_match req with
    | Some t =>
        if etags_given t
        then mkResponse 412 (mimetype rv) (headers rv) (body rv)
        else mkResponse 304 (mimetype rv) (headers rv) NoContent
    | None => mkResponse 304 (mimetype rv) (headers rv) NoContent
    end in
  let ordinary :=
    if is_resource_modified req etag last_modified true then rv
    else not_modified in
  if Method_eqb (method req) GET || Method_eqb (method req) HEAD then
    match http.range req with
    | Some r =>
        if is_range_request_processable req etag last_modified
           && negb (length =? 0)%nat
        then
          match range_for_length r length with
          | None => inl (HTTPException 416)
          | Some (start, stop) =>
              inr (mkResponse 206 (mimetype rv)
                     (headers rv ++
                      [("Content-Range",
                        "bytes " +:+ pretty start +:+ "-"
                        +:+ pretty (stop - 1)%nat +:+ "/" +:+ pretty length)])
                     (FileData (take (stop - start) (drop start data))))
          end
        else inr ordinary
    | None => inr ordinary
    end
  else inr rv.

(** *** Sending files *)

(** The characters a header parameter may hold without quotes. *)
Definition token_chars : string :=
  "!#$%&'*+-.0123456789ABCDEFGHIJKLMNOPQRSTUVWXYZ^_`abcdefghijklmnopqrstuvwxyz|~".

Fixpoint mem_char (c : ascii) (s : string) : bool :=
  match s with
  | EmptyString => false
  | String a s' => Ascii.eqb a c || mem_char c s'
  end.

Fixpoint is_token (s : string) : bool :=
  match s with
  | EmptyString => true
  | String c s' => mem_char c token_chars && is_token s'
  end.

Definition dquote : string := String "034"%char EmptyString.

Fixpoint escape_quoted (s : string) : string :=
  match s with
  | EmptyString => ""
  | String c s' =>
      if Ascii.eqb c "034" || Ascii.eqb c "\"
      then String "\" (String c (escape_quoted s'))
      else String c (escape_quoted s')
  end.

(** A header parameter value, quoted when it is not a token. *)
Definition quote_header_value (v : string) : string :=
  if is_token v && negb (String.eqb v "") then v
  else dquote +:+ escape_quoted v +:+ dquote.

(** The value of Content-Disposition for a file name in ASCII. *)
Definition content_disposition (as_attachment : bool) (name : string)
  : string :=
  (if as_attachment then "attachment" else "inline")
  +:+ "; filename=" +:+ quote_header_value name.

(** The framework's [send_file] on an absolute path, with [mimetype] and
    [download_name] given or left out.  The file is looked up on disk; a
    missing file raises [FileNotFoundError]; a present one is answered with
    status 200, the MIME type given or guessed from the name, and a
    Content-Disposition naming the download; the answer is then made
    conditional on the request being handled. *)
Definition send_path (path_ : string) (mimetype_ : option string)
    (as_attachment : bool) (download_name : option string)
  : Py Response := fun w _ =>
  match files w !! path_ with
  | None => ([FsAccess path_], Raises (FileNotFoundError path_))
  | Some data =>
      let name := default (posixpath.basename path_) download_name in
      let mt :=
        match mimetype_ with
        | Some m => m
        | None => default "application/octet-stream" (guess_type w name)
        end in
      let rv := mkResponse 200 mt
                  [("Content-Disposition", content_disposition as_attachment name)]
                  (FileData data) in
      match make_conditional (flask_request w) (file_etag w path_)
              (file_mtime w path_) data rv with
      | inl e => ([FsAccess path_], Raises e)
      | inr rv' => ([FsAccess path_], Returns rv')
      end
  end.

(** [send_file(path, mimetype=, as_attachment=, download_name=)] *)
Definition send_file (path_or_file mimetype_ : string) (as_attachment : bool)
    (download_name : string) : Py Response :=
  send_path path_or_file (Some mimetype_) as_attachment (Some download_name).

(** [werkzeug.security.safe_join] of a directory and one name: the name is
    normalised and refused when it is absolute or leaves the directory. *)
Definition safe_join (directory filename : string) : option string :=
  let directory := if String.eqb directory "" then "." else directory in
  let filename :=
    if String.eqb filename "" then "" else posixpath.normpath filename in
  if posixpath.isabs filename || String.eqb filename ".."
     || String.prefix "../" filename
  then None
  else Some (posixpath.join directory filename).

(** The directory of the file that defines the application. *)
Definition root_path (w : World) : string :=
  posixpath.dirname (posixpath.abspath (getcwd w) (module_file w)).

Definition static_folder (w : World) : string :=
  posixpath.join (root_path w) "static".

(** [send_static_file(filename)]: [send_from_directory] on the static
    folder; 404 when the name is refused or is not a file there. *)
Definition send_static_file (filename : string) : Py Response := fun w ps =>
  match safe_join (static_folder w) filename with
  | None => ([], Raises (HTTPException 404))
  | Some p =>
      match files w !! p with
      | None => ([FsAccess p], Raises (HTTPException 404))
      | Some _ =>
          let '(t, r) := send_path p None false None w ps in
          (FsAccess p :: t, r)
      end
  end.

(** *** The application object *)

Record Rule := mkRule {
  rule : string;
  methods : list Method;
  endpoint : string
}.

(** The application object: the url map, the view functions by endpoint
    (a view gets the path argument of its rule, if the rule has one), the
    functions run on every outgoing response, and the error handlers
    registered by status code. *)
Record App := mkApp {
  import_name : string;
  url_map : list Rule;
  view_functions : gmap string (option string -> Py Response);
  after_request_funcs : list (Request -> Response -> Response);
  error_handler_spec : gmap Z (exn -> Response)
}.

Definition static_view (arg : option string) : Py Response :=
  match arg with
  | Some filename => send_static_file filename
  | None => raise (KeyError "filename")
  end.

(** [Flask(import_name)]: a new application.  The framework gives it the
    rule [/static/<path:filename>], served from the [static] folder next to
    the file of the application. *)
Definition Flask (name : string) : App :=
  mkApp name
    [mkRule "/static/<path:filename>" [GET; HEAD; OPTIONS] "static"]
    {[ "static" := static_view ]} [] ∅.

(** [@app.route(rule)] on a function named [name]: the methods default to
    GET, with HEAD and OPTIONS added by the framework. *)
Definition route (rule_ : string) (name : string) (view : Py Response)
    (app : App) : App :=
  mkApp (import_name app)
    (url_map app ++ [mkRule rule_ [GET; HEAD; OPTIONS] name])
    (<[name := fun _ => view]> (view_functions app))
    (after_request_funcs app)
    (error_handler_spec app).

Definition after_request (f : Request -> Response -> Response) (app : App)
  : App :=
  mkApp (import_name app) (url_map app) (view_functions app)
    (after_request_funcs app ++ [f]) (error_handler_spec app).

(** *** Routing *)

(** The text of a rule before its first converter, and whether it has
    one.  Of the converters the model knows [path], the one of the static
    rule, and takes it to end the rule. *)
Fixpoint rule_prefix (r : string) : string * bool :=
  match r with
  | EmptyString => ("", false)
  | String c r' =>
      if Ascii.eqb c "<" then ("", true)
      else let '(p, v) := rule_prefix r' in (String c p, v)
  end.

(** [s] without the prefix [p], when it starts with it. *)
Fixpoint strip_prefix (p s : string) : option string :=
  match p, s with
  | EmptyString, _ => Some s
  | String a p', String b s' =>
      if Ascii.eqb a b then strip_prefix p' s' else None
  | String _ _, EmptyString => None
  end.

(** A rule against a path: no match, a match, or a match that binds the
    path argument, which is not empty and does not start with a slash. *)
Definition rule_match (r : Rule) (p : string) : option (option string) :=
  match rule_prefix (rule r) with
  | (_, false) => if String.eqb (rule r) p then Some None else None
  | (pre, true) =>
      match strip_prefix pre p with
      | Some arg =>
          if String.eqb arg "" || String.prefix "/" arg then None
          else Some (Some arg)
      | None => None
      end
  end.

(** The first rule that matches the path and allows the method. *)
Fixpoint find_rule (rules : list Rule) (m : Method) (p : string)
  : option (Rule * option string) :=
  match rules with
  | [] => None
  | r :: rules' =>
      match rule_match r p with
      | Some arg =>
          if existsb (Method_eqb m) (methods r) then Some (r, arg)
          else find_rule rules' m p
      | None => find_rule rules' m p
      end
  end.

(** Some rule matches the path. *)
Definition path_known (rules : list Rule) (p : string) : bool :=
  existsb (fun r => bool_decide (is_Some (rule_match r p))) rules.

(** [re.sub("/{2,}?", "/", path)]: each pair of slashes becomes one. *)
Fixpoint merge_slashes (p : string) : string :=
  match p with
  | String a ((String b p') as rest) =>
      if Ascii.eqb a "/" && Ascii.eqb b "/" then String "/" (merge_slashes p')
      else String a (merge_slashes rest)
  | _ => p
  end.

(** Matching a request against the url map: the first rule for the path
    that allows the method; else, when the path with its doubled slashes
    merged would match, a redirect to that path; else 405 when the path or
    the merged path is known under another method, and 404 otherwise. *)
Definition url_match (rules : list Rule) (req : Request)
  : exn + (Rule * option string) :=
  match find_rule rules (method req) (path req) with
  | Some m => inr m
  | None =>
      let merged := merge_slashes (path req) in
      match find_rule rules (method req) merged with
      | Some _ => inl (RequestRedirect merged)
      | None =>
          if path_known rules (path req) || path_known rules merged
          then inl (HTTPException 405)
          else inl (HTTPException 404)
      end
  end.

(** *** Handling a request *)

(** The framework's own response for an HTTP error. *)
Definition default_error_response (code : Z) : Response :=
  mkResponse code "text/html" [] (ErrorPage code).

(** The response of a routing redirect; the URL is given by its path. *)
Definition redirect_response (location : string) : Response :=
  mkResponse 308 "text/html" [("Location", location)] (ErrorPage 308).

Definition make_default_options_response (r : Rule) : Response :=
  mkResponse 200 "text/html"
    [("Allow", String.concat ", " (map Method_name (methods r)))] NoContent.

Definition dispatch_request (app : App) (req : Request) : Py Response :=
  match url_match (url_map app) req with
  | inl e => raise e
  | inr (r, arg) =>
      if Method_eqb (method req) OPTIONS
      then mret (make_default_options_response r)
      else match view_functions app !! endpoint r with
           | Some view => view arg
           | None => raise (KeyError (endpoint r))
           end
  end.

(** The after-request functions, last registered first. *)
Definition process_response (app : App) (req : Request) (rv : Response)
  : Response :=
  fold_left (fun r f => f req r) (rev (after_request_funcs app)) rv.

Definition error_response (app : App) (code : Z) (e : exn) : Response :=
  match error_handler_spec app !! code with
  | Some handler => handler e
  | None => default_error_response code
  end.

(** HTTP errors and routing redirects become responses; anything else is
    raised again. *)
Definition handle_user_exception (app : App) (e : exn) : Py Response :=
  match e with
  | HTTPException code => mret (error_response app code e)
  | RequestRedirect location => mret (redirect_response location)
  | _ => raise e
  end.

(** An exception nobody handled becomes the 500 response. *)
Definition handle_exception (app : App) (req : Request) (e : exn)
  : Py Response :=
  mret (process_response app req (error_response app 500 e)).

Definition full_dispatch_request (app : App) (req : Request) : Py Response :=
  rv ← try_except (dispatch_request app req) (handle_user_exception app);
  mret (process_response app req rv).

(** The application called on a request: the request becomes the current
    one while it is dispatched. *)
Definition wsgi_app (app : App) (req : Request) : Py Response := fun w ps =>
  try_except (full_dispatch_request app req) (handle_exception app req)
    (with_request req w) ps.

(** *** The development server *)

Definition lower_ascii (c : ascii) : ascii :=
  let n := nat_of_ascii c in
  if (65 <=? n)%nat && (n <=? 90)%nat then ascii_of_nat (n + 32) else c.

Fixpoint lower (s : string) : string :=
  match s with
  | EmptyString => ""
  | String c s' => String (lower_ascii c) (lower s')
  end.

Definition falsy (v : string) : bool :=
  existsb (String.eqb (lower v)) ["0"; "false"; "no"].

(** [os.environ.get(name) == value] *)
Definition env_is (env : gmap string string) (name value : string) : bool :=
  bool_decide (env !! name = Some value).

(** [is_running_from_reloader()] *)
Definition from_reloader (w : World) : bool :=
  env_is (os_environ w) "WERKZEUG_RUN_MAIN" "true".

(** [get_load_dotenv()] *)
Definition get_load_dotenv (w : World) : bool :=
  match os_environ w !! "FLASK_SKIP_DOTENV" with
  | None => true
  | Some v => if String.eqb v "" then true else falsy v
  end.

(** The debug flag [run] ends up with: off, unless dotenv loading is on and
    the environment, completed from the dotenv files, sets FLASK_DEBUG to
    something that is not empty, 0, false or no. *)
Definition run_debug (w : World) : bool :=
  get_load_dotenv w &&
  match (os_environ w ∪ dotenv w) !! "FLASK_DEBUG" with
  | Some v => negb (String.eqb v "") && negb (falsy v)
  | None => false
  end.

(** [app.name] *)
Definition app_name (import_name_ : string) (w : World) : string :=
  if String.eqb import_name_ "__main__"
  then posixpath.stem (posixpath.basename (module_file w))
  else import_name_.

Definition cli_warning : string :=
  " * Ignoring a call to 'app.run()' that would block the current 'flask' CLI command."
  +:+ String "010"%char "   Only call 'app.run()' in an 'if __name__ == "
  +:+ dquote +:+ "__main__" +:+ dquote +:+ "' guard.".

Definition server_banner (name : string) (debug : bool) : list Event :=
  [Stdout (" * Serving Flask app '" +:+ name +:+ "'");
   Stdout (" * Debug mode: " +:+ (if debug then "on" else "off"))].

(** The command the reloader restarts the script with. *)
Definition reloader_args (w : World) : list string :=
  match sys_argv w with
  | [] => [sys_executable w]
  | script :: args =>
      sys_executable w :: posixpath.abspath (getcwd w) script :: args
  end.

(** [app.run(host=, port=)].  Under the [flask] command line the call is
    ignored.  Otherwise the banner is printed and the server socket is
    bound, which ends the process when the port is taken; then requests are
    served, each answered by [wsgi_app], until the process is stopped.  In
    debug mode the serving is left to a copy of the script that the
    reloader starts; a copy that exits with return code 3 is started again,
    and so on without end, of which the trace shows the first round. *)
Definition run (app : App) (host : string) (port : Z) : Py unit := fun w ps =>
  let routes := rule <$> url_map app in
  if env_is (os_environ w) "FLASK_RUN_FROM_CLI" "true" then
    (if from_reloader w then [] else [Stdout cli_warning], Returns tt)
  else if from_reloader w then
    ([Listen host port routes], Blocks)
  else
    let debug := run_debug w in
    let banner := server_banner (app_name (import_name app) w) debug in
    if bool_decide (port ∈ ports_in_use w) then
      (banner, Raises (SystemExit 1))
    else if debug then
      let args := reloader_args w in
      let child :=
        with_environ (<["WERKZEUG_RUN_MAIN" := "true"]> (os_environ w)) w in
      match ps child args with
      | LaunchFails e =>
          (banner ++ [Listen host port routes; Exec args], Raises e)
      | Exits rc =>
          (banner ++ [Listen host port routes; Exec args; ChildExit rc],
           if (rc =? 3)%Z then Blocks else Raises (SystemExit rc))
      | NeverExits =>
          (banner ++ [Listen host port routes; Exec args], Blocks)
      end
    else (banner ++ [Listen host port routes], Blocks).

End flask.

(** ** Library model: [flask_cors] *)

Module flask_cors.
Import flask.

Definition ACL_ORIGIN : string := "Access-Control-Allow-Origin".

(** With the default options every origin is allowed on every path: the
    origin of the request is sent back, with [Vary: Origin] unless it is
    the wildcard itself, and the wildcard is sent when the request names no
    origin or an empty one.  A response that already carries the header is
    kept. *)
Definition cors_after_request (req : Request) (resp : Response) : Response :=
  match header_get ACL_ORIGIN resp with
  | Some _ => resp
  | None =>
      match origin req with
      | Some o =>
          if String.eqb o "" then header_set ACL_ORIGIN "*" resp
          else if String.eqb o "*" then header_set ACL_ORIGIN o resp
          else header_add "Vary" "Origin" (header_set ACL_ORIGIN o resp)
      | None => header_set ACL_ORIGIN "*" resp
      end
  end.

(** [CORS(app)] *)
Definition CORS (app : App) : App := after_request cors_after_request app.


End flask_cors.

(** ** scripts/db_server.py *)

Module db_server.
Import flask flask_cors.

Definition serve_db : Py Response :=
  db_path ← os_path.abspath "sqlite.db";
  send_file db_path "application/x-sqlite3" true "sqlite.db".

(** The module-level statements: [app = Flask(__name__)], [CORS(app)] and
    the decorated definition of [serve_db]. *)
Definition app (__name__ : string) : App :=
  route "/sqlite.db" "serve_db" serve_db (CORS (Flask __name__)).

(** Running the file with [__name__] bound as the interpreter binds it. *)
Definition main (__name__ : string) : Py unit :=
  if String.eqb __name__ "__main__" then
    print "Starting DB server on http://0.0.0.0:5000/sqlite.db";;
    run (app __name__) "0.0.0.0" 5000
  else mret tt.

End db_server.

(** ** scripts/sqlite_server.py *)

Module sqlite_server.

Definition main (__name__ : string) : Py unit :=
  if String.eqb __name__ "__main__" then
    db_path ← os_path.abspath "sqlite.db";
    print ("Starting SQLite Web server for database: " +:+ db_path);;
    print "Access the database at http://0.0.0.0:8080";;
    _ ← subprocess.run [
      "sqlite_web";
      "--host"; "0.0.0.0";
      "--port"; "8080";
      "--no-browser";
      "--read-only";
      db_path
    ];
    mret tt
  else mret tt.

End sqlite_server.

(** ** Sample worlds *)

Definition sample_db : bytes := [Byte.x53; Byte.x51; Byte.x4c].

Definition sample_js : bytes := [Byte.x31; Byte.x3b].

(** A process started as [python <script> ...] in [cwd]: no dotenv file,
    every port free, files of time 0, and no request being handled but a
    plain GET of the root. *)
Definition process (cwd : string) (fs : gmap string bytes)
    (argv : list string) (env : gmap string string) : World :=
  mkWorld cwd fs argv env "/usr/bin/python3" (default "" (head argv)) ∅
    (fun _ => 0%Z) (fun _ => "0-0-0")
    (fun name => if posixpath.endswith ".js" name
                 then Some "text/javascript" else None)
    [] (flask.mkRequest flask.GET "/" None).

Definition world_present : World :=
  process "/srv/app" {[ "/srv/app/sqlite.db" := sample_db ]}
    ["db_server.py"] ∅.

Definition world_absent : World :=
  process "/srv/app" ∅ ["sqlite_server.py"; "--port"; "9"]
    {[ "PATH" := "/usr/bin" ]}.

(** The database next to a [static] folder with one file. *)
Definition world_static : World :=
  process "/srv/app"
    {[ "/srv/app/sqlite.db" := sample_db;
       "/srv/app/static/app.js" := sample_js ]}
    ["db_server.py"] ∅.

(** The script started under the [flask] command line. *)
Definition world_cli : World :=
  process "/srv/app" {[ "/srv/app/sqlite.db" := sample_db ]}
    ["db_server.py"] {[ "FLASK_RUN_FROM_CLI" := "true" ]}.

(** A GET of the first byte of the database. *)
Definition first_byte_request : flask.Request :=
  http.mkEnviron flask.GET "/sqlite.db" None
    (Some (http.BytesFromTo 0 0)) None None None None.

(** [sqlite_web] is found only through [PATH]. *)
Definition path_programs : Programs := fun w args =>
  match os_environ w !! "PATH", args with
  | Some _, "sqlite_web" :: _ => NeverExits
  | _, _ => LaunchFails (FileNotFoundError "sqlite_web")
  end.

(** ** Vocabulary of the properties *)


(** The argument vector the launcher is expected to build for a database
    at [db_path]. *)
Definition sqlite_web_command (db_path : string) : list string :=
  ["sqlite_web"; "--host"; "0.0.0.0"; "--port"; "8080";
   "--no-browser"; "--read-only"; db_path].





(** The same request from another origin. *)
Definition set_origin (o : option string) (req : flask.Request)
  : flask.Request :=
  http.mkEnviron (http.method req) (http.path req) o (http.range req)
    (http.if_range req) (http.if_none_match req) (http.if_match req)
    (http.if_modified_since req).

(** The rules of the application of [db_server.py]. *)
Definition app_rules : list flask.Rule :=
  [flask.mkRule "/static/<path:filename>"
     [flask.GET; flask.HEAD; flask.OPTIONS] "static";
   flask.mkRule "/sqlite.db"
     [flask.GET; flask.HEAD; flask.OPTIONS] "serve_db"].



(** * Properties *)

Example ex_basename : posixpath.basename "/srv/app/static/app.js" = "app.js".
Proof. reflexivity. Qed.

Example ex_dirname : posixpath.dirname "/srv/app/db_server.py" = "/srv/app".
Proof. reflexivity. Qed.

Example ex_stem : posixpath.stem "db_server.py" = "db_server".
Proof. reflexivity. Qed.

Example ex_merge : flask.merge_slashes "/a//b///c////d" = "/a/b//c//d".
Proof. reflexivity. Qed.

Example ex_static_folder : flask.static_folder world_static = "/srv/app/static".
Proof. reflexivity. Qed.

Example ex_range :
  flask.wsgi_app (db_server.app "__main__") first_byte_request world_present
    path_programs
  = ([FsAccess "/srv/app/sqlite.db"],
     Returns (flask.mkResponse 206 "application/x-sqlite3"
                [("Content-Disposition", "attachment; filename=sqlite.db");
                 ("Content-Range", "bytes 0-0/3");
                 ("Access-Control-Allow-Origin", "*")]
                (flask.FileData [Byte.x53]))).
Proof. reflexivity. Qed.

Example ex_static :
  flask.wsgi_app (db_server.app "__main__")
    (flask.mkRequest flask.GET "/static/app.js" (Some "https://example.org"))
    world_static path_programs
  = ([FsAccess "/srv/app/static/app.js"; FsAccess "/srv/app/static/app.js"],
     Returns (flask.mkResponse 200 "text/javascript"
                [("Content-Disposition", "inline; filename=app.js");
                 ("Access-Control-Allow-Origin", "https://example.org");
                 ("Vary", "Origin")]
                (flask.FileData sample_js))).
Proof. reflexivity. Qed.

Example ex_static_post :
  flask.wsgi_app (db_server.app "__main__")
    (flask.mkRequest flask.POST "/static/x" None) world_static path_programs
  = ([], Returns (flask.mkResponse 405 "text/html"
                    [("Access-Control-Allow-Origin", "*")]
                    (flask.ErrorPage 405))).
Proof. reflexivity. Qed.

Example ex_redirect :
  flask.wsgi_app (db_server.app "__main__")
    (flask.mkRequest flask.GET "//sqlite.db" None) world_static path_programs
  = ([], Returns (flask.mkResponse 308 "text/html"
                    [("Location", "/sqlite.db");
                     ("Access-Control-Allow-Origin", "*")]
                    (flask.ErrorPage 308))).
Proof. reflexivity. Qed.

Example ex_main :
  db_server.main "__main__" world_present path_programs
  = ([Stdout "Starting DB server on http://0.0.0.0:5000/sqlite.db";
      Stdout " * Serving Flask app 'db_server'";
      Stdout " * Debug mode: off";
      Listen "0.0.0.0" 5000 ["/static/<path:filename>"; "/sqlite.db"]],
     Blocks).
Proof. reflexivity. Qed.

Example ex_main_cli :
  listens (trace (db_server.main "__main__" world_cli path_programs)) = []
  /\ ending (db_server.main "__main__" world_cli path_programs) = Returns tt.
Proof. split; reflexivity. Qed.

(** ** Path resolution *)

Example abspath_home :
  posixpath.abspath "/home/runner/workspace" "sqlite.db"
  = "/home/runner/workspace/sqlite.db".
Proof. reflexivity. Qed.

Example abspath_root : posixpath.abspath "/" "sqlite.db" = "/sqlite.db".
Proof. reflexivity. Qed.

Example normpath_dots :
  posixpath.normpath "/a/./b/../c//d/" = "/a/c/d".
Proof. reflexivity. Qed.

Example lookup_present :
  files world_present !! posixpath.abspath (getcwd world_present) "sqlite.db"
  = Some sample_db.
Proof. reflexivity. Qed.

Lemma prefix_slash_append (a b : string) :
  String.prefix "/" a = true -> String.prefix "/" (a +:+ b) = true.
Proof.
  destruct a as [|c a]; [discriminate|].
  cbn [String.prefix String.append].
  destruct (ascii_dec "/" c); [|discriminate].
  subst c. intros _.
  change (String "/" a +:+ b) with (String "/" (a +:+ b)).
  by destruct (a +:+ b).
Qed.

Lemma normpath_isabs (p : string) :
  posixpath.isabs p = true -> posixpath.isabs (posixpath.normpath p) = true.
Proof.
  unfold posixpath.isabs, posixpath.normpath, posixpath.sep. intros Hp.
  destruct (String.eqb_spec p "") as [->|_]; [discriminate|].
  unfold posixpath.initial_slashes, posixpath.sep. rewrite Hp. cbn [negb].
  destruct (String.prefix "//" p && negb (String.prefix "///" p)).
  - cbn. reflexivity.
  - cbn. by destruct (String.concat _ _).
Qed.

(** The resolved database path is absolute as soon as the working directory
    is, which is what the operating system reports. *)
Lemma abspath_isabs (cwd : string) :
  posixpath.isabs cwd = true ->
  posixpath.isabs (posixpath.abspath cwd "sqlite.db") = true.
Proof.
  intros Hcwd. unfold posixpath.abspath. cbn [posixpath.isabs].
  apply normpath_isabs.
  change (posixpath.isabs "sqlite.db") with false. cbv iota.
  unfold posixpath.join. change (posixpath.isabs "sqlite.db") with false.
  cbv iota. unfold posixpath.isabs, posixpath.sep in *.
  destruct (_ || _); by apply prefix_slash_append.
Qed.

(** ** Conditional requests *)


(** ** Views and what they yield *)


(** Sending a path touches that path, once, and nothing else. *)
Lemma send_path_trace p mt att dn w ps :
  trace (flask.send_path p mt att dn w ps) = [FsAccess p].
Proof.
  unfold flask.send_path.
  destruct (files w !! p) as [data|]; [|reflexivity].
  by destruct (flask.make_conditional _ _ _ _ _).
Qed.



(** ** The handler *)

Section Handler.
Import flask flask_cors db_server.

Variables (w : World) (ps : Programs).

Local Abbreviation db_path := (posixpath.abspath (getcwd w) "sqlite.db").

(** The handler is the call of [send_file] on the resolved path and nothing
    else: whatever that call yields is what the handler yields. *)
Lemma serve_db_is_send_file :
  serve_db w ps
  = send_file db_path "application/x-sqlite3" true "sqlite.db" w ps.
Proof.
  unfold serve_db, mbind, Py_bind, os_path.abspath.
  by destruct (send_file _ _ _ _ w ps) as [t []].
Qed.



(** The handler never blocks and touches the disk at the resolved path
    only. *)
Lemma serve_db_trace : trace (serve_db w ps) = [FsAccess db_path].
Proof. rewrite serve_db_is_send_file. apply send_path_trace. Qed.


End Handler.

(** ** Headers *)

Section Headers.
Import flask flask_cors.













End Headers.

(** ** Routing in the application *)

Section Routing.
Import flask.

Local Abbreviation static_rule :=
  (mkRule "/static/<path:filename>" [GET; HEAD; OPTIONS] "static").
Local Abbreviation sqlite_rule :=
  (mkRule "/sqlite.db" [GET; HEAD; OPTIONS] "serve_db").







End Routing.

(** ** Dispatch through the application *)

Section Dispatch.
Import flask flask_cors.

Variables (n : string) (view : Py Response) (w : World) (ps : Programs).

(** The application of the script, with the handler left open. *)
Local Abbreviation app := (route "/sqlite.db" "serve_db" view (CORS (Flask n))).

(** What the framework makes of what a view yields. *)
Local Abbreviation finalise req r :=
  (match r with
   | (t, Returns rv) => (t, Returns (cors_after_request req rv))
   | (t, Raises (HTTPException code)) =>
       (t, Returns (cors_after_request req (default_error_response code)))
   | (t, Raises (RequestRedirect location)) =>
       (t, Returns (cors_after_request req (redirect_response location)))
   | (t, Raises _) =>
       (t, Returns (cors_after_request req (default_error_response 500)))
   | (t, Blocks) => (t, Blocks)
   end).

Lemma url_map_app : url_map app = app_rules.
Proof. reflexivity. Qed.

(** The application on a request, by what routing says. *)
Lemma wsgi_app_by_match req :
  wsgi_app app req w ps
  = match url_match app_rules req with
    | inl e => finalise req (([] : list Event), @Raises Response e)
    | inr (r, arg) =>
        if Method_eqb (method req) OPTIONS
        then ([], Returns (cors_after_request req
                             (make_default_options_response r)))
        else if String.eqb (endpoint r) "serve_db"
             then finalise req (view (with_request req w) ps)
             else if String.eqb (endpoint r) "static"
                  then finalise req (static_view arg (with_request req w) ps)
                  else finalise req
                         (([] : list Event),
                          @Raises Response (KeyError (endpoint r)))
    end.
Proof.
  unfold wsgi_app, full_dispatch_request, try_except, mbind, Py_bind,
    dispatch_request.
  rewrite url_map_app.
  destruct (url_match app_rules req) as [e|[r arg]].
  - by destruct e.
  - destruct (Method_eqb (method req) OPTIONS); [reflexivity|].
    cbn [view_functions route CORS after_request Flask].
    destruct (String.eqb_spec (endpoint r) "serve_db") as [->|Hne1].
    + rewrite lookup_insert_eq.
      destruct (view _ ps) as [t [rv|e|]]; cbn -[cors_after_request].
      * by rewrite app_nil_r.
      * destruct e; cbn -[cors_after_request]; by rewrite ?app_nil_r.
      * reflexivity.
    + rewrite lookup_insert_ne by done.
      destruct (String.eqb_spec (endpoint r) "static") as [->|Hne2].
      * rewrite lookup_singleton_eq.
        destruct (static_view arg _ ps) as [t [rv|e|]];
          cbn -[cors_after_request].
        -- by rewrite app_nil_r.
        -- destruct e; cbn -[cors_after_request]; by rewrite ?app_nil_r.
        -- reflexivity.
      * rewrite lookup_singleton_ne by done. reflexivity.
Qed.


End Dispatch.




(** ** The launcher *)

(** What running [sqlite_server.py] does: two lines on standard output,
    then one child process, whose fate is the fate of the script. *)
Lemma sqlite_server_runs (w : World) (ps : Programs) :
  let db_path := posixpath.abspath (getcwd w) "sqlite.db" in
  let greeting :=
    [Stdout ("Starting SQLite Web server for database: " +:+ db_path);
     Stdout "Access the database at http://0.0.0.0:8080"] in
  sqlite_server.main "__main__" w ps
  = match ps w (sqlite_web_command db_path) with
    | LaunchFails e =>
        (greeting ++ [Exec (sqlite_web_command db_path)], Raises e)
    | Exits rc =>
        (greeting ++ [Exec (sqlite_web_command db_path); ChildExit rc],
         Returns tt)
    | NeverExits =>
        (greeting ++ [Exec (sqlite_web_command db_path)], Blocks)
    end.
Proof.
  cbv zeta.
  unfold sqlite_server.main, mbind, Py_bind, os_path.abspath, print,
    subprocess.run, sqlite_web_command.
  cbn [String.eqb Ascii.eqb Bool.eqb].
  by destruct (ps w _).
Qed.

Lemma sqlite_server_exec_args (w : World) (ps : Programs) :
  exec_args (trace (sqlite_server.main "__main__" w ps))
  = [sqlite_web_command (posixpath.abspath (getcwd w) "sqlite.db")].
Proof.
  rewrite sqlite_server_runs. cbv zeta. by destruct (ps w _).
Qed.

(** ** The development server *)


(** The origin of the current request is nothing a file response looks
    at. *)
Lemma send_path_set_origin p mt att dn o req w ps :
  flask.send_path p mt att dn (with_request (set_origin o req) w) ps
  = flask.send_path p mt att dn (with_request req w) ps.
Proof. reflexivity. Qed.





(** ** The scripts against their specification *)




(** C2: run as a script, [sqlite_server.py] starts exactly one external
    process; its argument vector is [sqlite_web --host 0.0.0.0 --port 8080
    --no-browser --read-only <path>], where the last argument is [sqlite.db]
    resolved from the working directory by [os.path.abspath], an absolute
    path since the working directory is one. *)
Theorem C2_launch_command (w : World) (ps : Programs) :
  exec_args (trace (sqlite_server.main "__main__" w ps))
  = [["sqlite_web"; "--host"; "0.0.0.0"; "--port"; "8080"; "--no-browser";
      "--read-only"; posixpath.abspath (getcwd w) "sqlite.db"]]
  /\ (posixpath.isabs (getcwd w) = true ->
      posixpath.isabs (posixpath.abspath (getcwd w) "sqlite.db") = true).
Proof. split; [apply sqlite_server_exec_args|apply abspath_isabs]. Qed.

Lemma C2_launch_command_witness :
  posixpath.isabs (getcwd world_absent) = true
  /\ exec_args (trace (sqlite_server.main "__main__" world_absent
                         path_programs))
     = [["sqlite_web"; "--host"; "0.0.0.0"; "--port"; "8080"; "--no-browser";
         "--read-only"; "/srv/app/sqlite.db"]]
  /\ posixpath.isabs "/srv/app/sqlite.db" = true.
Proof.
  split; [reflexivity|].
  destruct (C2_launch_command world_absent path_programs) as [Hargs Habs].
  split; [exact Hargs|]. apply Habs. reflexivity.
Defined.



(** C4: the database path of each script depends on the working directory
    alone and is [abspath] of the fixed name [sqlite.db]: in two processes
    with the same working directory, whatever else differs, the path the
    handler of [db_server.py] opens and the path [sqlite_server.py] passes
    last to the external tool are the same path. *)
Theorem C4_same_database_path (w1 w2 : World) (ps1 ps2 : Programs) :
  getcwd w1 = getcwd w2 ->
  let db_path := posixpath.abspath (getcwd w1) "sqlite.db" in
  fs_paths (trace (db_server.serve_db w1 ps1)) = [db_path]
  /\ last <$> exec_args (trace (sqlite_server.main "__main__" w2 ps2))
     = [Some db_path].
Proof.
  intros Hcwd db_path. split.
  - by rewrite serve_db_trace.
  - rewrite sqlite_server_exec_args, <- Hcwd. reflexivity.
Qed.

Lemma C4_same_database_path_witness :
  getcwd world_present = getcwd world_absent
  /\ fs_paths (trace (db_server.serve_db world_present path_programs))
     = ["/srv/app/sqlite.db"]
  /\ last <$> exec_args (trace (sqlite_server.main "__main__" world_absent
                                  path_programs))
     = [Some "/srv/app/sqlite.db"].
Proof.
  split; [reflexivity|].
  apply (C4_same_database_path world_present world_absent path_programs
           path_programs).
  reflexivity.
Defined.




(** The argument vector is the same, what becomes of the child is not: the
    child inherits the environment. *)
Example launch_outcome_follows_environ :
  ending (sqlite_server.main "__main__" world_absent path_programs) = Blocks
  /\ ending (sqlite_server.main "__main__"
               (with_environ ∅ world_absent) path_programs)
     = Raises (FileNotFoundError "sqlite_web").
Proof. split; reflexivity. Qed.





(** C8: whatever the world and whatever the child does, an execution of
    [sqlite_server.py] starts the external tool once.  If the child exits,
    with any return code, the script returns right after the exit and does
    nothing more; if the child keeps running, the script stays blocked on
    it; if the child cannot be started, the error ends the script.  There is
    no second start on any of these paths. *)
Theorem C8_one_blocking_child (w : World) (ps : Programs) :
  let cmd := sqlite_web_command (posixpath.abspath (getcwd w) "sqlite.db") in
  let run := sqlite_server.main "__main__" w ps in
  length (exec_args (trace run)) = 1
  /\ match ps w cmd with
     | Exits rc =>
         ending run = Returns tt
         /\ exists before, trace run = before ++ [Exec cmd; ChildExit rc]
     | NeverExits =>
         ending run = Blocks
         /\ exists before, trace run = before ++ [Exec cmd]
     | LaunchFails e =>
         ending run = Raises e
         /\ exists before, trace run = before ++ [Exec cmd]
     end.
Proof.
  intros cmd run. split.
  - unfold run. by rewrite sqlite_server_exec_args.
  - unfold run. rewrite sqlite_server_runs. cbv zeta. fold cmd.
    destruct (ps w cmd); (split; [reflexivity|]); eexists; reflexivity.
Qed.

(** C9: the launcher does not look at the disk.  In every world, the one
    without [sqlite.db] included, it prints its two lines and starts the
    external tool on the resolved path; it touches no file, before the
    start or after, and it raises only what a failed start raises. *)
Theorem C9_no_existence_check (w : World) (ps : Programs) :
  let db_path := posixpath.abspath (getcwd w) "sqlite.db" in
  let run := sqlite_server.main "__main__" w ps in
  fs_paths (trace run) = []
  /\ (exists rest,
        trace run
        = [Stdout ("Starting SQLite Web server for database: " +:+ db_path);
           Stdout "Access the database at http://0.0.0.0:8080";
           Exec (sqlite_web_command db_path)] ++ rest)
  /\ ending run
     = match ps w (sqlite_web_command db_path) with
       | LaunchFails e => Raises e
       | Exits _ => Returns tt
       | NeverExits => Blocks
       end.
Proof.
  intros db_path run. unfold run. rewrite sqlite_server_runs. cbv zeta.
  fold db_path. destruct (ps w _) as [e'|rc|]; cbn.
  - split; [done|]. split; [by exists []|done].
  - split; [done|]. split; [by exists [ChildExit rc]|done].
  - split; [done|]. split; [by exists []|done].
Qed.

(** The launcher in a directory without [sqlite.db]. *)
Example launch_without_database :
  files world_absent !! "/srv/app/sqlite.db" = None
  /\ sqlite_server.main "__main__" world_absent path_programs
     = ([Stdout "Starting SQLite Web server for database: /srv/app/sqlite.db";
         Stdout "Access the database at http://0.0.0.0:8080";
         Exec ["sqlite_web"; "--host"; "0.0.0.0"; "--port"; "8080";
               "--no-browser"; "--read-only"; "/srv/app/sqlite.db"]],
        Blocks).
Proof. split; reflexivity. Qed.




(** ** Further properties of the scripts *)







(** X4: loaded under any name other than [__main__], [db_server.py] prints
    nothing and starts no server, and the application it defines answers
    every request as the application of the script run directly does. *)
Theorem X4_db_server_imported
    (n : string) (w : World) (ps : Programs) :
  n <> "__main__" ->
  db_server.main n w ps = ([], Returns tt)
  /\ forall (req : flask.Request) (w' : World),
       flask.wsgi_app (db_server.app n) req w' ps
       = flask.wsgi_app (db_server.app "__main__") req w' ps.
Proof.
  intros Hn. split.
  - unfold db_server.main.
    destruct (String.eqb_spec n "__main__"); [congruence|reflexivity].
  - intros req w'. unfold db_server.app. by rewrite !wsgi_app_by_match.
Qed.

Lemma X4_db_server_imported_witness :
  "db_server" <> "__main__"
  /\ db_server.main "db_server" world_present path_programs
     = ([], Returns tt).
Proof.
  split; [discriminate|].
  apply (X4_db_server_imported "db_server" world_present path_programs).
  discriminate.
Defined.

(** X5: loaded under any name other than [__main__], [sqlite_server.py]
    does nothing: no output, no child process, no error. *)
Theorem X5_sqlite_server_imported
    (n : string) (w : World) (ps : Programs) :
  n <> "__main__" ->
  sqlite_server.main n w ps = ([], Returns tt).
Proof.
  intros Hn. unfold sqlite_server.main.
  destruct (String.eqb_spec n "__main__"); [congruence|reflexivity].
Qed.

Lemma X5_sqlite_server_imported_witness :
  "sqlite_server" <> "__main__"
  /\ sqlite_server.main "sqlite_server" world_absent path_programs
     = ([], Returns tt).
Proof.
  split; [discriminate|].
  apply (X5_sqlite_server_imported "sqlite_server" world_absent
           path_programs).
  discriminate.
Defined.

